(** * yelp.client: a shallow embedding of the Yelp v2 API client

    The client ([src/yelp/client.py], Python 2) turns a method call into one
    signed HTTP GET and the JSON answer into a wrapper object.  This file
    embeds

    - the pieces of the Python 2 runtime the client calls ([str], [format]
      with an empty format specification, [str.format] templates,
      [str.encode], [urllib.quote]) in [Module Py];
    - a trace-and-exception monad [M] for the effects of a call (signing,
      opening a connection, reading, closing, building a wrapper);
    - the methods of [Client], one definition per method, under the names
      they have in the source;

    and then states and proves the properties of the client. *)

From Stdlib Require Import ZArith List Ascii String Floats.
From Stdlib Require Import DecimalString.
From stdpp Require Import base option list strings gmap fin_maps.

Local Open Scope string_scope.
Local Open Scope Z_scope.

(* Decimal float literals stand, as in Python, for the nearest binary64. *)
Set Warnings "-inexact-float".

(* ===================================================================== *)
(** * The Python 2 runtime, as far as the client uses it *)
(* ===================================================================== *)

Module Py.

(** Python objects that reach the client as arguments: the kinds its
    docstrings name (floats, byte strings, [None] for an optional argument
    left out) and the integers and booleans callers pass in their place.
    [VStr] is the Python 2 byte string ([str]), so a Rocq [string] (a list
    of bytes) is its exact counterpart; [VFloat] is a binary64 float.
    These are the values of request parameters; an argument that may
    also be unicode text is an [object], below.  Containers and instances
    of other classes are left out. *)
Inductive value : Type :=
| VNone
| VBool (b : bool)
| VInt (z : Z)
| VFloat (f : float)
| VStr (s : string).

(** [x is not None] *)
Definition is_not_None (x : value) : bool :=
  match x with VNone => false | _ => true end.

(** ** Decimal rendering of integers: [str(int)] *)

Definition int_str (z : Z) : string :=
  NilZero.string_of_int (Z.to_int z).

(** ** [str(float)]

    CPython 2.7 renders [str(x)] for a float as [format_float_short x 'g' 12]
    with the "add .0" flag: the 12 significant decimal digits nearest to the
    exact binary value (ties to even), trailing zeros dropped, written
    positionally when the decimal exponent is in [-4, 11) and in exponent
    notation otherwise. *)

(** [lt_pow10 num den k]: is [num/den < 10^k] ? *)
Definition lt_pow10 (num den k : Z) : bool :=
  if 0 <=? k then num <? den * 10 ^ k
  else num * 10 ^ (- k) <? den.

(** The least [k] at or above [k0] with [num/den < 10^k], looking at most
    [fuel] steps ahead. *)
Fixpoint find_decpt (fuel : nat) (num den k0 : Z) : Z :=
  match fuel with
  | O => k0
  | S fuel' =>
      if lt_pow10 num den k0 then k0
      else find_decpt fuel' num den (k0 + 1)
  end.

(** A binary64 value lies in [2^-1074, 2^1024), so its decimal point
    position lies in [-323, 309]. *)
Definition decpt_of (num den : Z) : Z :=
  find_decpt 640 num den (-330).

(** [num/den * 10^s], rounded to the nearest integer, ties to even. *)
Definition round_scaled (num den s : Z) : Z :=
  let N := if 0 <=? s then num * 10 ^ s else num in
  let D := if 0 <=? s then den else den * 10 ^ (- s) in
  let q := N / D in
  let r := N mod D in
  if (D <? 2 * r) || ((D =? 2 * r) && Z.odd q) then q + 1 else q.

(** Drop the trailing zeros of a positive integer. *)
Fixpoint strip_zeros (fuel : nat) (q : Z) : Z :=
  match fuel with
  | O => q
  | S fuel' =>
      if (0 <? q) && (q mod 10 =? 0) then strip_zeros fuel' (q / 10) else q
  end.

(** [dtoa x 2 ndigits]: the digit string and the position of the decimal
    point of the positive rational [m * 2^e]. *)
Definition dtoa (ndigits : Z) (m : positive) (e : Z) : string * Z :=
  let num := if 0 <=? e then Z.pos m * 2 ^ e else Z.pos m in
  let den := if 0 <=? e then 1 else 2 ^ (- e) in
  let k := decpt_of num den in
  let q := round_scaled num den (ndigits - k) in
  let '(q, k) := if q =? 10 ^ ndigits then (10 ^ (ndigits - 1), k + 1)
                 else (q, k) in
  (int_str (strip_zeros (Z.to_nat ndigits) q), k).

(** The slice [vdigits[i : stop]] of the digit string padded with zeros on
    both sides, with the decimal point put in front of position [decpt]. *)
Fixpoint vdigits_slice (fuel : nat) (digits : string) (decpt i stop : Z)
  : string :=
  match fuel with
  | O => ""
  | S fuel' =>
      if stop <=? i then ""
      else
        let d := if (0 <=? i) && (i <? Z.of_nat (String.length digits))
                 then match String.get (Z.to_nat i) digits with
                      | Some c => c
                      | None => "0"%char
                      end
                 else "0"%char in
        let rest := vdigits_slice fuel' digits decpt (i + 1) stop in
        if i =? decpt then String "."%char (String d rest)
        else String d rest
  end.

(** The exponent, written as C's ["%+.02d"]. *)
Definition exp_str (e : Z) : string :=
  let a := int_str (Z.abs e) in
  (if e <? 0 then "-" else "+") ++ (if Z.abs e <? 10 then "0" ++ a else a).

(** [format_float_short] for the code ['g'] with [add_dot_0_if_integer]. *)
Definition format_float_short (precision : Z) (neg : bool)
    (digits : string) (decpt : Z) : string :=
  let digits_len := Z.of_nat (String.length digits) in
  let use_exp := (decpt <=? -4) || (precision - 1 <? decpt) in
  let exp := decpt - 1 in
  let decpt := if use_exp then 1 else decpt in
  let vdigits_start := if decpt <=? 0 then decpt - 1 else 0 in
  let vdigits_end :=
    if use_exp then Z.max digits_len decpt
    else Z.max digits_len (decpt + 1) in
  let body :=
    vdigits_slice (Z.to_nat (vdigits_end - vdigits_start))
                  digits decpt vdigits_start vdigits_end in
  (if neg then "-" else "") ++ body
    ++ (if use_exp then "e" ++ exp_str exp else "").

Definition float_str (f : float) : string :=
  match Prim2SF f with
  | S754_nan => "nan"
  | S754_infinity neg => if neg then "-inf" else "inf"
  | S754_zero neg => format_float_short 12 neg "0" 1
  | S754_finite neg m e =>
      let '(digits, decpt) := dtoa 12 m e in
      format_float_short 12 neg digits decpt
  end.

(** ** [str(x)] and [format(x, '')] *)

Definition py_str (x : value) : string :=
  match x with
  | VNone => "None"
  | VBool b => if b then "True" else "False"
  | VInt z => int_str z
  | VFloat f => float_str f
  | VStr s => s
  end.

(** [format(x, '')]: with an empty format specification every one of the
    types above answers with its [str]. *)
Definition py_format (x : value) : string := py_str x.

(** ** Exceptions raised by the builtins *)

Inductive error : Type :=
| TypeError
| ValueError
| IndexError
| UnicodeDecodeError
| IOError (reason : string)
| Unsupported.

(** ** Text

    Python 2 has two string types: [str], a string of bytes, and
    [unicode], a string of code points (as on a wide build).  A business
    id may be either: the client encodes the path before quoting it. *)

Inductive pystring : Type :=
| Bytes (s : string)
| Text (code_points : list N).

Coercion Bytes : string >-> pystring.

(** An argument that may be unicode text as well as a plain value. *)
Inductive object : Type :=
| Plain (v : value)
| UnicodeText (code_points : list N).

Coercion Plain : value >-> object.

Definition is_ascii_byte (c : ascii) : bool := (nat_of_ascii c <? 128)%nat.

Definition ascii_only (s : string) : bool :=
  forallb is_ascii_byte (list_ascii_of_string s).

(** [s.decode('ascii')], which Python 2 applies to a byte string wherever
    text is wanted: it fails on any byte above 127. *)
Definition ascii_decode (s : string) : error + list N :=
  if ascii_only s then inr (map N_of_ascii (list_ascii_of_string s))
  else inl UnicodeDecodeError.

(** The UTF-8 bytes of one code point. *)
Definition utf8_bytes (cp : N) : list ascii :=
  (if cp <? 128 then [ascii_of_N cp]
   else if cp <? 2048
   then [ascii_of_N (192 + cp / 64); ascii_of_N (128 + cp mod 64)]
   else if cp <? 65536
   then [ascii_of_N (224 + cp / 4096);
         ascii_of_N (128 + (cp / 64) mod 64);
         ascii_of_N (128 + cp mod 64)]
   else [ascii_of_N (240 + (cp / 262144) mod 8);
         ascii_of_N (128 + (cp / 4096) mod 64);
         ascii_of_N (128 + (cp / 64) mod 64);
         ascii_of_N (128 + cp mod 64)])%N.

(** [a + b] for a byte string [a]: another byte string gives a byte
    string; unicode text gives unicode text, [a] being decoded as ASCII
    first; nothing else can be added. *)
Definition str_add (a : string) (b : object) : error + pystring :=
  match b with
  | Plain (VStr s) => inr (Bytes (a ++ s))
  | UnicodeText u =>
      match ascii_decode a with
      | inr ua => inr (Text (ua ++ u)%list)
      | inl e => inl e
      end
  | Plain _ => inl TypeError
  end.

(** ** [template.format(args...)]

    The replacement fields the client writes are positional ([{0}], [{1}],
    ...) with no conversion and no format specification; [{{] and [}}]
    stand for a brace.  Other field syntax is answered with [Unsupported]. *)

Inductive fmt_state : Type :=
| Literal                     (* copying text *)
| AfterOpen                   (* just read an opening brace *)
| AfterClose                  (* just read a closing brace outside a field *)
| Field (index : nat).        (* reading the digits of a field *)

Definition digit_of (c : ascii) : option nat :=
  let n := nat_of_ascii c in
  if (48 <=? n)%nat && (n <=? 57)%nat then Some (n - 48)%nat else None.

Definition emit_text (s : string) (r : error + string) : error + string :=
  match r with
  | inr out => inr (s ++ out)
  | inl e => inl e
  end.

Fixpoint format_from (st : fmt_state) (template : string)
    (args : list value) : error + string :=
  match template with
  | EmptyString =>
      match st with
      | Literal => inr ""
      | _ => inl ValueError
      end
  | String c rest =>
      match st with
      | Literal =>
          if Ascii.eqb c "{" then format_from AfterOpen rest args
          else if Ascii.eqb c "}" then format_from AfterClose rest args
          else emit_text (String c "") (format_from Literal rest args)
      | AfterOpen =>
          if Ascii.eqb c "{"
          then emit_text "{" (format_from Literal rest args)
          else match digit_of c with
               | Some d => format_from (Field d) rest args
               | None => inl Unsupported
               end
      | AfterClose =>
          if Ascii.eqb c "}"
          then emit_text "}" (format_from Literal rest args)
          else inl ValueError
      | Field n =>
          if Ascii.eqb c "}"
          then match nth_error args n with
               | Some x => emit_text (py_format x)
                                     (format_from Literal rest args)
               | None => inl IndexError
               end
          else match digit_of c with
               | Some d => format_from (Field (10 * n + d)) rest args
               | None => inl Unsupported
               end
      end
  end.

Definition str_format (template : string) (args : list value)
  : error + string :=
  format_from Literal template args.

(** ** [s.encode('utf-8')]

    On a byte string Python 2 first decodes the bytes with the default
    codec (ASCII), which fails on any byte above 127, and then encodes the
    text as UTF-8, which leaves ASCII text as it is.  On unicode text it
    encodes the code points. *)

Definition str_encode_utf8 (s : string) : error + string :=
  if ascii_only s then inr s else inl UnicodeDecodeError.

Definition unicode_encode_utf8 (u : list N) : string :=
  string_of_list_ascii (flat_map utf8_bytes u).

Definition encode_utf8 (p : pystring) : error + string :=
  match p with
  | Bytes s => str_encode_utf8 s
  | Text u => inr (unicode_encode_utf8 u)
  end.

(** ** [urllib.quote(s)] with the default [safe='/'] *)

Definition always_safe (c : ascii) : bool :=
  let n := nat_of_ascii c in
  ((65 <=? n) && (n <=? 90) || (97 <=? n) && (n <=? 122)
   || (48 <=? n) && (n <=? 57)
   || (n =? 95) || (n =? 46) || (n =? 45))%nat.

Definition hex_digit (n : nat) : ascii :=
  if (n <? 10)%nat then ascii_of_nat (48 + n) else ascii_of_nat (55 + n).

Definition quote_byte (c : ascii) : string :=
  if always_safe c || Ascii.eqb c "/" then String c ""
  else
    let n := nat_of_ascii c in
    String "%" (String (hex_digit (n / 16)) (String (hex_digit (n mod 16)) "")).

Fixpoint quote (s : string) : string :=
  match s with
  | EmptyString => ""
  | String c rest => quote_byte c ++ quote rest
  end.

End Py.

Import Py.

(* ===================================================================== *)
(** * The world around the client *)
(* ===================================================================== *)

(** [urllib2.HTTPError]: the status line and the body of a non-success
    answer. *)
Record HTTPError : Type := mkHTTPError {
  code : Z;
  msg : string;
  error_body : string
}.

(** The object [urllib2.urlopen] returns: [read()] gives the body or
    fails. *)
Record connection : Type := mkConnection {
  conn_body : error + string
}.

(** What [urllib2.urlopen(url, None)] does: return a connection, raise
    [HTTPError] (a non-success status), or raise something else
    ([URLError], a socket error). *)
Inductive urlopen_result : Type :=
| Connected (conn : connection)
| RaisedHTTPError (err : HTTPError)
| RaisedOther (e : error).

(** Everything the module imports or reaches over the network:
    - [yelp.config], whose four constants are not part of the sources at
      hand and are therefore parameters;
    - [json.loads], returning [None] where Python raises [ValueError];
    - [urllib2.urlopen];
    - the error taxonomy of [yelp.errors] and the choice the handler makes
      in it. *)
Class World : Type := {
  API_HOST : string;
  BUSINESS_PATH : string;
  PHONE_SEARCH_PATH : string;
  SEARCH_PATH : string;
  json : Type;
  json_loads : string -> option json;
  urlopen : string -> urlopen_result;
  error_kind : Type;
  select_error : HTTPError -> error_kind
}.

(** The injected authenticator: an opaque signing capability that, given
    a URL and a parameter mapping, returns the signed URL. *)
Record Authenticator : Type := mkAuthenticator {
  sign_request : string -> gmap string value -> string
}.

(** ** A concrete world, for running the client

    The host and paths of the Yelp v2 API; documents are kept as the text
    that was parsed, and a body parses when it opens with a brace; the
    handler's error kind is the status code; the transport gives every
    request the same [answer]. *)
Definition demo_world (answer : urlopen_result) : World := {|
  API_HOST := "api.yelp.com";
  BUSINESS_PATH := "/v2/business/";
  PHONE_SEARCH_PATH := "/v2/phone_search/";
  SEARCH_PATH := "/v2/search/";
  json := string;
  json_loads := fun body =>
    match body with
    | String "{" _ => Some body
    | _ => None
    end;
  urlopen := fun _ => answer;
  error_kind := Z;
  select_error := code
|}.

Definition demo_authenticator : Authenticator := {|
  sign_request := fun url _ => url ++ "oauth_signature=demo"
|}.

Definition answer_ok : urlopen_result :=
  Connected {| conn_body := inr "{}" |}.

Definition answer_garbled : urlopen_result :=
  Connected {| conn_body := inr "<html>" |}.

Definition answer_400 : urlopen_result :=
  RaisedHTTPError {| code := 400; msg := "Bad Request"; error_body := "" |}.

Section Client.

Context {W : World}.

(** ** Outcomes and effects *)

Inductive exn : Type :=
| Builtin (e : error)
| ApiError (kind : error_kind).

(** Modelled from the spec: the wrapper classes [BusinessResponse] and
    [SearchResponse] ([yelp/obj], not among the sources): "thin typed
    views over the parsed JSON payload", so a wrapper is the parsed
    document under a tag.  The document is [None] where
    [_make_connection] falls off its end. *)
Inductive response : Type :=
| BusinessResponse (doc : option json)
| SearchResponse (doc : option json).

Inductive event : Type :=
| SignRequest (url : string) (url_params : gmap string value)
| UrlOpen (signed_url : string)
| ConnRead
| ConnClose
| Construct (w : response).

(** A computation leaves a trace of events and ends by returning or by
    raising. *)
Definition M (A : Type) : Type := list event * (exn + A).

Definition ret {A} (a : A) : M A := ([], inr a).

Definition raise {A} (e : exn) : M A := ([], inl e).

Definition emit (ev : event) : M unit := ([ev], inr tt).

Definition bind {A B} (m : M A) (k : A -> M B) : M B :=
  match m with
  | (t, inl e) => (t, inl e)
  | (t, inr a) => let '(t', r) := k a in ((t ++ t')%list, r)
  end.

Definition lift {A} (r : error + A) : M A :=
  match r with
  | inl e => raise (Builtin e)
  | inr a => ret a
  end.

(** [try: body finally: cleanup] *)
Definition try_finally {A} (body : M A) (cleanup : M unit) : M A :=
  let '(t, r) := body in
  match cleanup with
  | (t', inl e) => ((t ++ t')%list, inl e)
  | (t', inr _) => ((t ++ t')%list, r)
  end.

Definition trace {A} (m : M A) : list event := fst m.

Definition outcome {A} (m : M A) : exn + A := snd m.

Local Notation "x <- m ;; k" := (bind m (fun x => k))
  (at level 100, m at next level, right associativity).
Local Notation "m ;;; k" := (bind m (fun _ => k))
  (at level 100, right associativity).

(** ** Collaborators *)

(** Modelled from the spec: [ErrorHandler.raise_error] ([yelp/errors.py],
    not among the sources): it "inspects the response and fails with an
    error kind selected from the API's documented error taxonomy".  The
    selection is the handler's own ([select_error]). *)
Definition raise_error (err : HTTPError) : M unit :=
  raise (ApiError (select_error err)).

(** The client object.  Its [_error_handler] is always a fresh
    [ErrorHandler()], whose one method is [raise_error] above. *)
Record Client : Type := mkClient {
  authenticator : Authenticator
}.

Definition __init__ (authenticator : Authenticator) : Client :=
  {| authenticator := authenticator |}.

Definition conn_read (conn : connection) : M string :=
  emit ConnRead ;;; lift (conn_body conn).

Definition conn_close (conn : connection) : M unit :=
  emit ConnClose.

Definition loads (body : string) : M json :=
  match json_loads body with
  | Some doc => ret doc
  | None => raise (Builtin ValueError)
  end.

Definition construct (w : response) : M response :=
  emit (Construct w) ;;; ret w.

(** ** The private methods *)

Definition _format_current_lat_long (lat long : value) : M string :=
  lift (str_format "{0},{1}" [lat; long]).

Definition _format_bounds
    (sw_latitude sw_longitude ne_latitude ne_longitude : value) : M string :=
  lift (str_format "{0},{1}|{2},{3}"
          [sw_latitude; sw_longitude; ne_latitude; ne_longitude]).

(** The loop [for field in (...): if field is not None: coord += ...
    else: break]. *)
Fixpoint for_fields (coord : string) (fields : list value) : string :=
  match fields with
  | [] => coord
  | field :: rest =>
      if is_not_None field
      then for_fields (coord ++ ("," ++ py_str field)) rest
      else coord
  end.

Definition _format_coordinates
    (latitude longitude accuracy altitude altitude_accuracy : value)
  : M string :=
  coord <- lift (str_format "{0},{1}" [latitude; longitude]) ;;
  ret (for_fields coord [accuracy; altitude; altitude_accuracy]).

Definition _make_connection (signed_url : string) : M (option json) :=
  emit (UrlOpen signed_url) ;;;
  match urlopen signed_url with
  | RaisedHTTPError err =>
      raise_error err ;;;
      ret None
  | RaisedOther e => raise (Builtin e)
  | Connected conn =>
      response <- try_finally (body <- conn_read conn ;; loads body)
                              (conn_close conn) ;;
      ret (Some response)
  end.

Definition _make_request (self : Client) (path : pystring)
    (url_params : gmap string value) : M (option json) :=
  encoded <- lift (encode_utf8 path) ;;
  url <- lift (str_format "https://{0}{1}?"
                 [VStr API_HOST; VStr (quote encoded)]) ;;
  emit (SignRequest url url_params) ;;;
  let signed_url := sign_request (authenticator self) url url_params in
  _make_connection signed_url.

(** ** The public endpoint methods *)

Definition get_business (self : Client) (business_id : object)
    (url_params : gmap string value) : M response :=
  business_path <- lift (str_add BUSINESS_PATH business_id) ;;
  doc <- _make_request self business_path url_params ;;
  construct (BusinessResponse doc).

Definition search (self : Client) (location current_lat current_long : value)
    (url_params : gmap string value) : M response :=
  let url_params := <["location" := location]> url_params in
  url_params <-
    (if is_not_None current_lat && is_not_None current_long
     then cll <- _format_current_lat_long current_lat current_long ;;
          ret (<["cll" := VStr cll]> url_params)
     else ret url_params) ;;
  doc <- _make_request self SEARCH_PATH url_params ;;
  construct (SearchResponse doc).

Definition search_by_bounding_box (self : Client)
    (sw_latitude sw_longitude ne_latitude ne_longitude : value)
    (url_params : gmap string value) : M response :=
  bounds <- _format_bounds sw_latitude sw_longitude
                           ne_latitude ne_longitude ;;
  let url_params := <["bounds" := VStr bounds]> url_params in
  doc <- _make_request self SEARCH_PATH url_params ;;
  construct (SearchResponse doc).

Definition search_by_coordinates (self : Client)
    (latitude longitude accuracy altitude altitude_accuracy : value)
    (url_params : gmap string value) : M response :=
  ll <- _format_coordinates latitude longitude
                            accuracy altitude altitude_accuracy ;;
  let url_params := <["ll" := VStr ll]> url_params in
  doc <- _make_request self SEARCH_PATH url_params ;;
  construct (SearchResponse doc).

Definition phone_search (self : Client) (phone : value)
    (url_params : gmap string value) : M response :=
  let url_params := <["phone" := phone]> url_params in
  doc <- _make_request self PHONE_SEARCH_PATH url_params ;;
  construct (SearchResponse doc).

(** ** Reading a trace *)

(** The outbound network requests of a trace. *)
Definition requests (t : list event) : list string :=
  omap (fun ev => match ev with UrlOpen u => Some u | _ => None end) t.

(** The parameter mappings handed to the authenticator. *)
Definition signed_params (t : list event) : list (gmap string value) :=
  omap (fun ev => match ev with
                  | SignRequest _ ps => Some ps
                  | _ => None
                  end) t.

(** The wrapper objects built. *)
Definition wrappers (t : list event) : list response :=
  omap (fun ev => match ev with Construct w => Some w | _ => None end) t.

(** ** Calls, for statements about every public endpoint method *)

Inductive call : Type :=
| GetBusiness (business_id : object) (url_params : gmap string value)
| Search (location current_lat current_long : value)
         (url_params : gmap string value)
| SearchByBoundingBox
    (sw_latitude sw_longitude ne_latitude ne_longitude : value)
    (url_params : gmap string value)
| SearchByCoordinates
    (latitude longitude accuracy altitude altitude_accuracy : value)
    (url_params : gmap string value)
| PhoneSearch (phone : value) (url_params : gmap string value).

Definition run (self : Client) (c : call) : M response :=
  match c with
  | GetBusiness business_id url_params =>
      get_business self business_id url_params
  | Search location current_lat current_long url_params =>
      search self location current_lat current_long url_params
  | SearchByBoundingBox sw_latitude sw_longitude ne_latitude ne_longitude
                        url_params =>
      search_by_bounding_box self sw_latitude sw_longitude
                             ne_latitude ne_longitude url_params
  | SearchByCoordinates latitude longitude accuracy altitude
                        altitude_accuracy url_params =>
      search_by_coordinates self latitude longitude accuracy altitude
                            altitude_accuracy url_params
  | PhoneSearch phone url_params => phone_search self phone url_params
  end.

(** The path a call asks for, when it can be built. *)
Definition path_of (c : call) : error + pystring :=
  match c with
  | GetBusiness business_id _ => str_add BUSINESS_PATH business_id
  | PhoneSearch _ _ => inr (Bytes PHONE_SEARCH_PATH)
  | _ => inr (Bytes SEARCH_PATH)
  end.

(** The bytes of that path, when it can be encoded as well. *)
Definition encoded_path (c : call) : error + string :=
  match path_of c with
  | inr path => encode_utf8 path
  | inl e => inl e
  end.

(** The path can be built and encoded. *)
Definition path_ok (c : call) : bool :=
  match encoded_path c with
  | inr _ => true
  | inl _ => false
  end.

(** The URL handed to the authenticator for an encoded path. *)
Definition url_of (path : string) : string :=
  "https://" ++ API_HOST ++ quote path ++ "?".

(** The parameter mapping a call hands to the authenticator. *)
Definition params_of (c : call) : gmap string value :=
  match c with
  | GetBusiness _ url_params => url_params
  | Search location current_lat current_long url_params =>
      let url_params := <["location" := location]> url_params in
      if is_not_None current_lat && is_not_None current_long
      then <["cll" := VStr (py_format current_lat ++ ","
                              ++ py_format current_long)]> url_params
      else url_params
  | SearchByBoundingBox sw_latitude sw_longitude ne_latitude ne_longitude
                        url_params =>
      <["bounds" := VStr (py_format sw_latitude ++ ","
                            ++ py_format sw_longitude ++ "|"
                            ++ py_format ne_latitude ++ ","
                            ++ py_format ne_longitude)]> url_params
  | SearchByCoordinates latitude longitude accuracy altitude
                        altitude_accuracy url_params =>
      <["ll" := VStr (for_fields (py_format latitude ++ ","
                                    ++ py_format longitude)
                        [accuracy; altitude; altitude_accuracy])]> url_params
  | PhoneSearch phone url_params => <["phone" := phone]> url_params
  end.

(** The wrapper class a call answers with. *)
Definition wrapper_of (c : call) : option json -> response :=
  match c with
  | GetBusiness _ _ => BusinessResponse
  | _ => SearchResponse
  end.

(** ** The coordinate string, in the words of the specification *)

(** The optional fields up to the first unset one. *)
Fixpoint until_unset (fields : list value) : list value :=
  match fields with
  | [] => []
  | field :: rest =>
      match field with
      | VNone => []
      | _ => field :: until_unset rest
      end
  end.

(** Each field after a comma. *)
Fixpoint comma_separated (fields : list value) : string :=
  match fields with
  | [] => ""
  | field :: rest => "," ++ py_str field ++ comma_separated rest
  end.

(** ['latitude,longitude'], then the optional fields that are kept. *)
Definition spec_coordinates (latitude longitude : value)
    (optional : list value) : string :=
  py_format latitude ++ "," ++ py_format longitude
    ++ comma_separated (until_unset optional).

(** The bounding box, in the words of the specification. *)
Definition spec_bounds
    (sw_latitude sw_longitude ne_latitude ne_longitude : value) : string :=
  py_format sw_latitude ++ "," ++ py_format sw_longitude ++ "|"
    ++ py_format ne_latitude ++ "," ++ py_format ne_longitude.

(** ** What a call is expected to send *)

(** The signed URL a call opens. *)
Definition signed_url (self : Client) (c : call) : string :=
  match encoded_path c with
  | inr path => sign_request (authenticator self) (url_of path) (params_of c)
  | inl _ => ""
  end.

(** [m] carries the call's values as they were given: the named ones
    rendered with [str], every other entry of [url_params] untouched. *)
Definition passed_through (c : call) (m : gmap string value) : Prop :=
  match c with
  | GetBusiness _ url_params => m = url_params
  | Search location current_lat current_long url_params =>
      m !! "location" = Some location
      /\ m !! "cll"
         = (if is_not_None current_lat && is_not_None current_long
            then Some (VStr (py_str current_lat ++ ","
                               ++ py_str current_long))
            else url_params !! "cll")
      /\ forall k, k <> "location" -> k <> "cll" -> m !! k = url_params !! k
  | SearchByBoundingBox sw_latitude sw_longitude ne_latitude ne_longitude
                        url_params =>
      m !! "bounds"
      = Some (VStr (py_str sw_latitude ++ "," ++ py_str sw_longitude ++ "|"
                      ++ py_str ne_latitude ++ "," ++ py_str ne_longitude))
      /\ forall k, k <> "bounds" -> m !! k = url_params !! k
  | SearchByCoordinates latitude longitude accuracy altitude
                        altitude_accuracy url_params =>
      m !! "ll"
      = Some (VStr (spec_coordinates latitude longitude
                      [accuracy; altitude; altitude_accuracy]))
      /\ forall k, k <> "ll" -> m !! k = url_params !! k
  | PhoneSearch phone url_params =>
      m !! "phone" = Some phone
      /\ forall k, k <> "phone" -> m !! k = url_params !! k
  end.

(** "Exactly one outbound network request", as a property of one call. *)
Definition exactly_one_request (self : Client) (c : call) : Prop :=
  length (requests (trace (run self c))) = 1%nat.

(** "['cll'] is in the request's mapping if and only if both
    [current_lat] and [current_long] are not [None]", as a property of one
    call to [search]. *)
Definition cll_iff_both_given (self : Client)
    (location current_lat current_long : value)
    (url_params : gmap string value) : Prop :=
  exists m,
    signed_params
      (trace (search self location current_lat current_long url_params))
    = [m]
    /\ (is_Some (m !! "cll")
        <-> current_lat <> VNone /\ current_long <> VNone).

(* ===================================================================== *)
(** * Properties *)
(* ===================================================================== *)

(** ** The runtime at work *)

Example float_str_examples :
  map float_str [37.8; -122.4; 1; 0.1; 100; 0.001; 1e-5; 1e10; 1e11;
                 123456789012.5; -0]%float
  = ["37.8"; "-122.4"; "1.0"; "0.1"; "100.0"; "0.001"; "1e-05";
     "10000000000.0"; "1e+11"; "1.23456789012e+11"; "-0.0"].
Proof. reflexivity. Qed.

Example py_str_examples :
  map py_str [VNone; VBool true; VInt (-15); VFloat 2.5; VStr "Oakland"]
  = ["None"; "True"; "-15"; "2.5"; "Oakland"].
Proof. reflexivity. Qed.

Example str_format_examples :
  str_format "{0},{1}|{2},{3}" [VInt 1; VFloat 2.5; VStr "x"; VNone]
  = inr "1,2.5|x,None"
  /\ str_format "{0},{1}" [VInt 1] = inl IndexError
  /\ str_format "{{{0}}}" [VInt 1] = inr "{1}"
  /\ str_format "{0" [VInt 1] = inl ValueError.
Proof. repeat split. Qed.

Example quote_examples :
  quote "/v2/business/yelp-san-francisco" = "/v2/business/yelp-san-francisco"
  /\ quote "/v2/business/a b~c" = "/v2/business/a%20b%7Ec"
  /\ str_encode_utf8 "/v2/search/" = inr "/v2/search/"
  /\ str_encode_utf8 (String "233"%char "") = inl UnicodeDecodeError.
Proof. repeat split. Qed.

Example utf8_examples :
  map (fun cp => list_ascii_of_string (unicode_encode_utf8 [cp]))
    [65; 233; 8364; 128512]%N
  = [["065"]; ["195"; "169"]; ["226"; "130"; "172"];
     ["240"; "159"; "152"; "128"]]%char.
Proof. reflexivity. Qed.

Example str_add_examples :
  str_add "/v2/business/" (VStr "yelp") = inr (Bytes "/v2/business/yelp")
  /\ str_add "/b/" (UnicodeText [233]%N)
     = inr (Text [47; 98; 47; 233]%N)
  /\ str_add "/v2/business/" VNone = inl TypeError
  /\ str_add "/v2/business/" (VInt 7) = inl TypeError
  /\ str_add (String "233"%char "") (UnicodeText [97]%N)
     = inl UnicodeDecodeError.
Proof. repeat split. Qed.

(** ** Strings and templates *)

Lemma append_nil_r (s : string) : s ++ "" = s.
Proof.
  induction s as [|c s IH]; [reflexivity |].
  change (String c (s ++ "") = String c s). now rewrite IH.
Qed.

Lemma append_assoc (a b c : string) : (a ++ b) ++ c = a ++ (b ++ c).
Proof.
  induction a as [|x a IH]; [reflexivity |].
  change (String x ((a ++ b) ++ c) = String x (a ++ (b ++ c))).
  now rewrite IH.
Qed.

Lemma str_format_pair (a b : value) :
  str_format "{0},{1}" [a; b] = inr (py_format a ++ "," ++ py_format b).
Proof.
  transitivity (inr (A := error) (py_format a ++ "," ++ py_format b ++ ""));
    [reflexivity | now rewrite append_nil_r].
Qed.

Lemma str_format_bounds (a b c d : value) :
  str_format "{0},{1}|{2},{3}" [a; b; c; d] = inr (spec_bounds a b c d).
Proof.
  unfold spec_bounds.
  transitivity (inr (A := error)
                  (py_format a ++ "," ++ py_format b ++ "|"
                     ++ py_format c ++ "," ++ py_format d ++ ""));
    [reflexivity | now rewrite append_nil_r].
Qed.

Lemma str_format_url (host p : string) :
  str_format "https://{0}{1}?" [VStr host; VStr p]
  = inr ("https://" ++ host ++ p ++ "?").
Proof. reflexivity. Qed.

(** ** The monad *)

Lemma bind_ret_l {A B} (a : A) (k : A -> M B) : bind (ret a) k = k a.
Proof. unfold bind, ret. now destruct (k a). Qed.

Lemma bind_raise {A B} (e : exn) (k : A -> M B) : bind (raise e) k = raise e.
Proof. reflexivity. Qed.

Lemma trace_bind {A B} (m : M A) (k : A -> M B) :
  trace (bind m k)
  = match outcome m with
    | inl _ => trace m
    | inr a => (trace m ++ trace (k a))%list
    end.
Proof.
  destruct m as [t [e | a]]; simpl; [reflexivity |].
  now destruct (k a).
Qed.

Lemma outcome_bind {A B} (m : M A) (k : A -> M B) :
  outcome (bind m k)
  = match outcome m with
    | inl e => inl e
    | inr a => outcome (k a)
    end.
Proof.
  destruct m as [t [e | a]]; simpl; [reflexivity |].
  now destruct (k a).
Qed.

(** ** The formatting methods never fail *)

Lemma format_current_lat_long_eq (lat long : value) :
  _format_current_lat_long lat long
  = ret (py_format lat ++ "," ++ py_format long).
Proof. unfold _format_current_lat_long. now rewrite str_format_pair. Qed.

Lemma format_bounds_eq (a b c d : value) :
  _format_bounds a b c d = ret (spec_bounds a b c d).
Proof. unfold _format_bounds. now rewrite str_format_bounds. Qed.

Lemma for_fields_spec (coord : string) (fields : list value) :
  for_fields coord fields
  = coord ++ comma_separated (until_unset fields).
Proof.
  revert coord; induction fields as [|field rest IH]; intros coord.
  - cbn [for_fields until_unset comma_separated]. now rewrite append_nil_r.
  - destruct field;
      cbn [for_fields until_unset comma_separated is_not_None];
      rewrite ?append_nil_r; try reflexivity;
      rewrite IH, append_assoc; reflexivity.
Qed.

Lemma format_coordinates_eq (lat long acc alt alt_acc : value) :
  _format_coordinates lat long acc alt alt_acc
  = ret (spec_coordinates lat long [acc; alt; alt_acc]).
Proof.
  unfold _format_coordinates. rewrite str_format_pair. simpl lift.
  rewrite bind_ret_l, for_fields_spec. unfold spec_coordinates.
  now rewrite !append_assoc.
Qed.

(** ** The transport *)

Lemma make_connection_eq (u : string) :
  _make_connection u
  = match urlopen u with
    | RaisedHTTPError err => ([UrlOpen u], inl (ApiError (select_error err)))
    | RaisedOther e => ([UrlOpen u], inl (Builtin e))
    | Connected conn =>
        ([UrlOpen u; ConnRead; ConnClose],
         match conn_body conn with
         | inl e => inl (Builtin e)
         | inr body =>
             match json_loads body with
             | Some doc => inr (Some doc)
             | None => inl (Builtin ValueError)
             end
         end)
    end.
Proof.
  unfold _make_connection.
  destruct (urlopen u) as [[[e | body]] | err | e]; try reflexivity.
  cbv [conn_read loads conn_close try_finally bind emit ret raise lift
       conn_body].
  destruct (json_loads body); reflexivity.
Qed.

Lemma make_request_eq (self : Client) (path : pystring)
    (ps : gmap string value) :
  _make_request self path ps
  = match encode_utf8 path with
    | inr encoded =>
        let u := sign_request (authenticator self) (url_of encoded) ps in
        (SignRequest (url_of encoded) ps :: trace (_make_connection u),
         outcome (_make_connection u))
    | inl e => raise (Builtin e)
    end.
Proof.
  unfold _make_request.
  destruct (encode_utf8 path) as [e | encoded]; [reflexivity |].
  cbn [lift]. rewrite bind_ret_l, str_format_url. cbn [lift].
  rewrite bind_ret_l. fold (url_of encoded).
  now destruct (_make_connection _).
Qed.

(** The tail every endpoint method ends with: the request, then the
    wrapper around its answer. *)
Lemma request_and_wrap_eq (self : Client) (path : pystring)
    (ps : gmap string value) (wrap : option json -> response) :
  (doc <- _make_request self path ps ;; construct (wrap doc))
  = match encode_utf8 path with
    | inr encoded =>
        let u := sign_request (authenticator self) (url_of encoded) ps in
        match outcome (_make_connection u) with
        | inl e =>
            (SignRequest (url_of encoded) ps :: trace (_make_connection u),
             inl e)
        | inr doc =>
            ((SignRequest (url_of encoded) ps :: trace (_make_connection u))
               ++ [Construct (wrap doc)],
             inr (wrap doc))%list
        end
    | inl e => raise (Builtin e)
    end.
Proof.
  rewrite make_request_eq.
  destruct (encode_utf8 path) as [e | encoded]; [reflexivity |].
  cbv zeta. destruct (_make_connection _) as [t [e | doc]]; reflexivity.
Qed.

(** Every call is: build the path, build the mapping, make the request,
    wrap the answer. *)
Lemma run_eq (self : Client) (c : call) :
  run self c
  = match path_of c with
    | inl e => raise (Builtin e)
    | inr path =>
        doc <- _make_request self path (params_of c) ;;
        construct (wrapper_of c doc)
    end.
Proof.
  destruct c as [business_id ps | location lat long ps | a b c d ps
                | lat long acc alt alt_acc ps | phone ps];
    cbn [run path_of params_of wrapper_of].
  - unfold get_business.
    destruct (str_add BUSINESS_PATH business_id) as [e | path];
      [reflexivity |].
    cbn [lift]. now rewrite bind_ret_l.
  - unfold search.
    destruct (is_not_None lat && is_not_None long).
    + rewrite format_current_lat_long_eq, !bind_ret_l. reflexivity.
    + now rewrite bind_ret_l.
  - unfold search_by_bounding_box.
    rewrite format_bounds_eq, bind_ret_l. reflexivity.
  - unfold search_by_coordinates, _format_coordinates.
    rewrite str_format_pair. cbn [lift]. now rewrite !bind_ret_l.
  - reflexivity.
Qed.

(** The whole of a call, event by event. *)
Lemma run_unfolded (self : Client) (c : call) :
  run self c
  = match encoded_path c with
    | inl e => ([], inl (Builtin e))
    | inr path =>
        let sent := SignRequest (url_of path) (params_of c) in
        let u := signed_url self c in
        match urlopen u with
        | RaisedHTTPError err =>
            ([sent; UrlOpen u], inl (ApiError (select_error err)))
        | RaisedOther e => ([sent; UrlOpen u], inl (Builtin e))
        | Connected conn =>
            match conn_body conn with
            | inl e =>
                ([sent; UrlOpen u; ConnRead; ConnClose], inl (Builtin e))
            | inr body =>
                match json_loads body with
                | Some doc =>
                    ([sent; UrlOpen u; ConnRead; ConnClose;
                      Construct (wrapper_of c (Some doc))],
                     inr (wrapper_of c (Some doc)))
                | None =>
                    ([sent; UrlOpen u; ConnRead; ConnClose],
                     inl (Builtin ValueError))
                end
            end
        end
    end.
Proof.
  rewrite run_eq. unfold signed_url, encoded_path.
  destruct (path_of c) as [e | path]; [reflexivity |].
  rewrite request_and_wrap_eq.
  destruct (encode_utf8 path) as [e | encoded]; [reflexivity |].
  cbv zeta. rewrite make_connection_eq.
  destruct (urlopen _) as [[[e | body]] | err | e]; try reflexivity.
  cbn [conn_body]. destruct (json_loads body); reflexivity.
Qed.

(** The paths of the search methods are those of the configuration. *)
Lemma encoded_path_fixed (c : call) :
  encoded_path c
  = match c with
    | GetBusiness _ _ => encoded_path c
    | PhoneSearch _ _ => str_encode_utf8 PHONE_SEARCH_PATH
    | _ => str_encode_utf8 SEARCH_PATH
    end.
Proof. destruct c; reflexivity. Qed.

Lemma str_encode_utf8_ascii (s : string) :
  ascii_only s = true -> str_encode_utf8 s = inr s.
Proof. intros H. unfold str_encode_utf8. now rewrite H. Qed.

Lemma signed_params_run (self : Client) (c : call) :
  signed_params (trace (run self c))
  = if path_ok c then [params_of c] else [].
Proof.
  rewrite run_unfolded. unfold path_ok.
  destruct (encoded_path c) as [e | path]; [reflexivity |].
  cbv zeta. destruct (urlopen _) as [[[e | body]] | err | e];
    try reflexivity.
  cbn [conn_body]. destruct (json_loads body); reflexivity.
Qed.

Lemma requests_run (self : Client) (c : call) :
  requests (trace (run self c))
  = if path_ok c then [signed_url self c] else [].
Proof.
  rewrite run_unfolded. unfold path_ok.
  destruct (encoded_path c) as [e | path]; [reflexivity |].
  cbv zeta. destruct (urlopen _) as [[[e | body]] | err | e];
    try reflexivity.
  cbn [conn_body]. destruct (json_loads body); reflexivity.
Qed.

(** For the search methods the path is fine when the configured one is. *)
Lemma path_ok_search (c : call) :
  ascii_only SEARCH_PATH = true ->
  match c with
  | GetBusiness _ _ | PhoneSearch _ _ => True
  | _ => path_ok c = true
  end.
Proof.
  intros Hsearch. unfold path_ok.
  destruct c; try exact I; rewrite encoded_path_fixed;
    now rewrite str_encode_utf8_ascii.
Qed.

Lemma path_ok_phone (phone : value) (ps : gmap string value) :
  ascii_only PHONE_SEARCH_PATH = true ->
  path_ok (PhoneSearch phone ps) = true.
Proof.
  intros Hphone. unfold path_ok. rewrite encoded_path_fixed.
  now rewrite str_encode_utf8_ascii.
Qed.

Lemma params_of_passed_through (c : call) : passed_through c (params_of c).
Proof.
  destruct c as [business_id ps | location lat long ps | a b c d ps
                | lat long acc alt alt_acc ps | phone ps];
    cbn [passed_through params_of].
  - reflexivity.
  - unfold py_format.
    destruct (is_not_None lat && is_not_None long); repeat split.
    + rewrite lookup_insert_ne by discriminate. apply lookup_insert_eq.
    + apply lookup_insert_eq.
    + intros k H1 H2. rewrite !lookup_insert_ne by congruence. reflexivity.
    + apply lookup_insert_eq.
    + rewrite lookup_insert_ne by discriminate. reflexivity.
    + intros k H1 H2. rewrite lookup_insert_ne by congruence. reflexivity.
  - split; [apply lookup_insert_eq |].
    intros k H. rewrite lookup_insert_ne by congruence. reflexivity.
  - rewrite for_fields_spec. unfold spec_coordinates.
    rewrite !append_assoc.
    split; [apply lookup_insert_eq |].
    intros k H. rewrite lookup_insert_ne by congruence. reflexivity.
  - split; [apply lookup_insert_eq |].
    intros k H. rewrite lookup_insert_ne by congruence. reflexivity.
Qed.

(** ** Formatting of composite parameters *)

(** C1: for every latitude, longitude and every combination of accuracy,
    altitude and altitude_accuracy, the coordinate string is
    'latitude,longitude' followed by the optional fields in order, each
    after a comma, up to the first one that is [None]; later fields are
    left out even when they are set.  [search_by_coordinates] sends that
    string as ['ll']. *)
Theorem format_coordinates_stops_at_first_unset
    (self : Client) (lat long acc alt alt_acc : value)
    (url_params : gmap string value) :
  _format_coordinates lat long acc alt alt_acc
  = ret (spec_coordinates lat long [acc; alt; alt_acc])
  /\ _format_coordinates lat long VNone alt alt_acc
     = ret (py_format lat ++ "," ++ py_format long)
  /\ (acc <> VNone ->
      _format_coordinates lat long acc VNone alt_acc
      = ret (py_format lat ++ "," ++ py_format long ++ "," ++ py_str acc))
  /\ search_by_coordinates self lat long acc alt alt_acc url_params
     = (doc <- _make_request self SEARCH_PATH
                 (<["ll" := VStr (spec_coordinates lat long
                                    [acc; alt; alt_acc])]> url_params) ;;
        construct (SearchResponse doc)).
Proof.
  split; [apply format_coordinates_eq |].
  split; [rewrite format_coordinates_eq; unfold spec_coordinates;
          cbn [until_unset comma_separated]; now rewrite append_nil_r |].
  split.
  - intros Hacc. rewrite format_coordinates_eq. unfold spec_coordinates.
    destruct acc; [congruence | ..];
      cbn [until_unset comma_separated]; now rewrite append_nil_r.
  - change (search_by_coordinates self lat long acc alt alt_acc url_params)
      with (run self (SearchByCoordinates lat long acc alt alt_acc
                        url_params)).
    rewrite run_eq. cbn [path_of params_of wrapper_of].
    rewrite for_fields_spec. unfold spec_coordinates.
    now rewrite !append_assoc.
Qed.

(** C3: for every four values the bounding-box string is exactly
    'sw_latitude,sw_longitude|ne_latitude,ne_longitude', and
    [search_by_bounding_box] sends it as ['bounds']. *)
Theorem format_bounds_exact
    (self : Client) (sw_lat sw_long ne_lat ne_long : value)
    (url_params : gmap string value) :
  _format_bounds sw_lat sw_long ne_lat ne_long
  = ret (py_format sw_lat ++ "," ++ py_format sw_long ++ "|"
           ++ py_format ne_lat ++ "," ++ py_format ne_long)
  /\ search_by_bounding_box self sw_lat sw_long ne_lat ne_long url_params
     = (doc <- _make_request self SEARCH_PATH
                 (<["bounds" := VStr (py_format sw_lat ++ ","
                                        ++ py_format sw_long ++ "|"
                                        ++ py_format ne_lat ++ ","
                                        ++ py_format ne_long)]> url_params) ;;
        construct (SearchResponse doc)).
Proof.
  split; [apply format_bounds_eq |].
  change (search_by_bounding_box self sw_lat sw_long ne_lat ne_long
            url_params)
    with (run self (SearchByBoundingBox sw_lat sw_long ne_lat ne_long
                      url_params)).
  now rewrite run_eq.
Qed.

(** C5: [search_by_coordinates(37.8, -122.4)], nothing else given, hands
    the authenticator the mapping whose only entry is ['ll'], equal to
    "37.8,-122.4" (the search path being ASCII, so that the URL can be
    built). *)
Theorem search_by_coordinates_example (self : Client) :
  ascii_only SEARCH_PATH = true ->
  signed_params
    (trace (search_by_coordinates self (VFloat 37.8) (VFloat (-122.4))
              VNone VNone VNone ∅))
  = [ {[ "ll" := VStr "37.8,-122.4" ]} ].
Proof.
  intros Hpath.
  change (search_by_coordinates self (VFloat 37.8) (VFloat (-122.4))
            VNone VNone VNone ∅)
    with (run self (SearchByCoordinates (VFloat 37.8) (VFloat (-122.4))
                      VNone VNone VNone ∅)).
  rewrite signed_params_run.
  rewrite (path_ok_search (SearchByCoordinates (VFloat 37.8)
                             (VFloat (-122.4)) VNone VNone VNone ∅) Hpath).
  reflexivity.
Qed.

(** ** Failures *)

(** C2: in every call to a public endpoint method, if the transport
    answers the call's request with [HTTPError], the call raises the error
    of the kind the handler selects for it, and no wrapper object is
    built. *)
Theorem http_error_raises_without_wrapper
    (self : Client) (c : call) (u : string) (err : HTTPError) :
  In u (requests (trace (run self c))) ->
  urlopen u = RaisedHTTPError err ->
  outcome (run self c) = inl (ApiError (select_error err))
  /\ wrappers (trace (run self c)) = [].
Proof.
  rewrite requests_run. intros Hu Herr.
  rewrite run_unfolded. unfold path_ok in Hu.
  destruct (encoded_path c) as [e | path] eqn:Hpath; [destruct Hu |].
  destruct Hu as [<- | []]. cbv zeta. rewrite Herr. split; reflexivity.
Qed.

(** C6: in every call whose request is answered with a body, the body is
    parsed as JSON: the call returns the wrapper of the parsed document,
    or, when the body does not parse, raises the parse error
    ([ValueError]).  Either way there was one request only (no retry) and
    the connection was closed; after a parse failure no wrapper was
    built. *)
Theorem json_parse_failure_is_fatal
    (self : Client) (c : call) (u : string) (conn : connection)
    (body : string) :
  In u (requests (trace (run self c))) ->
  urlopen u = Connected conn ->
  conn_body conn = inr body ->
  outcome (run self c)
  = match json_loads body with
    | Some doc => inr (wrapper_of c (Some doc))
    | None => inl (Builtin ValueError)
    end
  /\ requests (trace (run self c)) = [u]
  /\ In ConnClose (trace (run self c))
  /\ (json_loads body = None -> wrappers (trace (run self c)) = []).
Proof.
  rewrite requests_run. intros Hu Hconn Hbody.
  rewrite run_unfolded. unfold path_ok in *.
  destruct (encoded_path c) as [e | path] eqn:Hpath; [destruct Hu |].
  destruct Hu as [<- | []]. cbv zeta. rewrite Hconn, Hbody.
  destruct (json_loads body) as [doc |]; cbn [outcome trace fst snd];
    repeat split; try (intros; discriminate);
    cbn [In]; auto 6.
Qed.

(** ** The parameter mapping *)

(** C9 (amended): [search] sets ['cll'] to 'current_lat,current_long' if
    and only if both are not [None]; otherwise the named values are
    ignored and the mapping keeps whatever ['cll'] the caller put in
    [url_params].  So for a caller that put none, ['cll'] is in the
    request if and only if both were given. *)
Theorem search_cll_set_iff_both_given
    (self : Client) (location current_lat current_long : value)
    (url_params : gmap string value) :
  ascii_only SEARCH_PATH = true ->
  exists m,
    signed_params
      (trace (search self location current_lat current_long url_params))
    = [m]
    /\ m !! "cll"
       = (if is_not_None current_lat && is_not_None current_long
          then Some (VStr (py_str current_lat ++ "," ++ py_str current_long))
          else url_params !! "cll")
    /\ (url_params !! "cll" = None ->
        (is_Some (m !! "cll")
         <-> current_lat <> VNone /\ current_long <> VNone)).
Proof.
  intros Hpath.
  pose proof (signed_params_run self
                (Search location current_lat current_long url_params)) as Hs.
  rewrite (path_ok_search
             (Search location current_lat current_long url_params) Hpath)
    in Hs.
  eexists; split; [exact Hs |].
  destruct (params_of_passed_through
              (Search location current_lat current_long url_params))
    as (_ & Hcll & _).
  split; [exact Hcll |].
  intros Hnone. rewrite Hcll, Hnone.
  destruct current_lat, current_long; cbn [is_not_None andb];
    split; try (intros [? ?]; congruence); try (intros [? ?]; discriminate);
    try (intros _; split; discriminate); try (intros _; eexists; reflexivity).
Qed.

(** C10: whatever the caller put in [url_params] under the same key, the
    mapping that is signed holds the value of the named argument:
    ['location'] and (when both coordinates are given) ['cll'] in
    [search], ['bounds'] in [search_by_bounding_box], ['ll'] in
    [search_by_coordinates], ['phone'] in [phone_search]. *)
Theorem named_arguments_take_precedence (self : Client) :
  ascii_only SEARCH_PATH = true ->
  ascii_only PHONE_SEARCH_PATH = true ->
  (forall location lat long url_params, exists m,
      signed_params (trace (search self location lat long url_params)) = [m]
      /\ m !! "location" = Some location
      /\ (lat <> VNone -> long <> VNone ->
          m !! "cll" = Some (VStr (py_str lat ++ "," ++ py_str long))))
  /\ (forall a b c d url_params, exists m,
      signed_params
        (trace (search_by_bounding_box self a b c d url_params)) = [m]
      /\ m !! "bounds"
         = Some (VStr (py_str a ++ "," ++ py_str b ++ "|"
                         ++ py_str c ++ "," ++ py_str d)))
  /\ (forall lat long acc alt alt_acc url_params, exists m,
      signed_params
        (trace (search_by_coordinates self lat long acc alt alt_acc
                  url_params)) = [m]
      /\ m !! "ll"
         = Some (VStr (spec_coordinates lat long [acc; alt; alt_acc])))
  /\ (forall phone url_params, exists m,
      signed_params (trace (phone_search self phone url_params)) = [m]
      /\ m !! "phone" = Some phone).
Proof.
  intros Hsearch Hphone.
  assert (Hrun : forall c,
             match c with GetBusiness _ _ => False | _ => True end ->
             exists m, signed_params (trace (run self c)) = [m]
                       /\ passed_through c m).
  { intros c Hc. exists (params_of c).
    split; [| apply params_of_passed_through].
    rewrite signed_params_run.
    destruct c; try contradiction;
      [rewrite (path_ok_search (Search _ _ _ _) Hsearch)
      |rewrite (path_ok_search (SearchByBoundingBox _ _ _ _ _) Hsearch)
      |rewrite (path_ok_search (SearchByCoordinates _ _ _ _ _ _) Hsearch)
      |rewrite (path_ok_phone _ _ Hphone)]; reflexivity. }
  repeat split.
  - intros location lat long ps.
    destruct (Hrun (Search location lat long ps) I) as (m & Hm & Hl & Hc & _).
    exists m. repeat split; [exact Hm | exact Hl |].
    intros Hlat Hlong. rewrite Hc.
    destruct lat, long; try congruence; reflexivity.
  - intros a b c d ps.
    destruct (Hrun (SearchByBoundingBox a b c d ps) I) as (m & Hm & Hb & _).
    exists m; split; assumption.
  - intros lat long acc alt alt_acc ps.
    destruct (Hrun (SearchByCoordinates lat long acc alt alt_acc ps) I)
      as (m & Hm & Hl & _).
    exists m; split; assumption.
  - intros phone ps.
    destruct (Hrun (PhoneSearch phone ps) I) as (m & Hm & Hp & _).
    exists m; split; assumption.
Qed.

(* ===================================================================== *)
(** * Further properties of the transport and of the request URL *)
(* ===================================================================== *)

(** ** More ways to read a trace *)

(** The calls to [authenticator.sign_request]: the URL and the mapping. *)
Definition sign_requests (t : list event)
  : list (string * gmap string value) :=
  omap (fun ev => match ev with
                  | SignRequest url ps => Some (url, ps)
                  | _ => None
                  end) t.

(** How often [conn.read()] was called. *)
Definition reads (t : list event) : nat :=
  length (List.filter (fun ev => match ev with
                                 | ConnRead => true
                                 | _ => false
                                 end) t).

(** How often [conn.close()] was called. *)
Definition closes (t : list event) : nat :=
  length (List.filter (fun ev => match ev with
                                 | ConnClose => true
                                 | _ => false
                                 end) t).

(** The characters [urllib.quote] lets through as they are. *)
Definition unquoted (c : ascii) : bool :=
  always_safe c || Ascii.eqb c "/".

(** The characters a quoted string is made of. *)
Definition quoted_char (c : ascii) : bool :=
  unquoted c || Ascii.eqb c "%".

(** ** [urllib.quote] *)

Lemma append_cons (c : ascii) (a b : string) :
  String c a ++ b = String c (a ++ b).
Proof. reflexivity. Qed.

Lemma list_ascii_of_string_app (a b : string) :
  list_ascii_of_string (a ++ b)
  = (list_ascii_of_string a ++ list_ascii_of_string b)%list.
Proof.
  induction a as [|c a IH]; [reflexivity |].
  rewrite append_cons. cbn [list_ascii_of_string].
  now rewrite IH.
Qed.

Lemma quote_app (a b : string) : quote (a ++ b) = quote a ++ quote b.
Proof.
  induction a as [|c a IH]; [reflexivity |].
  rewrite append_cons. cbn [quote]. now rewrite IH, append_assoc.
Qed.

Lemma quote_byte_chars (c : ascii) :
  forallb quoted_char (list_ascii_of_string (quote_byte c)) = true.
Proof. destruct c as [[] [] [] [] [] [] [] []]; vm_compute; reflexivity. Qed.

Lemma quote_chars (s : string) :
  forallb quoted_char (list_ascii_of_string (quote s)) = true.
Proof.
  induction s as [|c s IH]; [reflexivity |].
  cbn [quote]. rewrite list_ascii_of_string_app, forallb_app.
  now rewrite quote_byte_chars, IH.
Qed.

Lemma quote_unquoted (s : string) :
  forallb unquoted (list_ascii_of_string s) = true -> quote s = s.
Proof.
  induction s as [|c s IH]; [reflexivity |].
  cbn [list_ascii_of_string forallb]. intros [Hc Hs]%andb_prop.
  cbn [quote]. unfold quote_byte. fold (unquoted c). rewrite Hc.
  rewrite append_cons. now rewrite IH.
Qed.

Lemma unquoted_is_ascii (c : ascii) :
  unquoted c = true -> is_ascii_byte c = true.
Proof.
  destruct c as [[] [] [] [] [] [] [] []]; vm_compute;
    intros; try reflexivity; discriminate.
Qed.

Lemma unquoted_ascii_only (s : string) :
  forallb unquoted (list_ascii_of_string s) = true -> ascii_only s = true.
Proof.
  unfold ascii_only. induction (list_ascii_of_string s) as [|c l IH];
    [reflexivity |].
  cbn [forallb]. intros [Hc Hl]%andb_prop.
  now rewrite (unquoted_is_ascii c Hc), IH.
Qed.

Lemma ascii_only_app (a b : string) :
  ascii_only (a ++ b) = ascii_only a && ascii_only b.
Proof.
  unfold ascii_only. now rewrite list_ascii_of_string_app, forallb_app.
Qed.

(** ** What every trace looks like *)

Lemma sign_requests_run (self : Client) (c : call) :
  sign_requests (trace (run self c))
  = match encoded_path c with
    | inr path => [(url_of path, params_of c)]
    | inl _ => []
    end.
Proof.
  rewrite run_unfolded.
  destruct (encoded_path c) as [e | path]; [reflexivity |].
  cbv zeta. destruct (urlopen _) as [[[e | body]] | err | e];
    try reflexivity.
  cbn [conn_body]. destruct (json_loads body); reflexivity.
Qed.

(** The path of a business whose id is a byte string. *)
Lemma encoded_path_bytes (s : string) (ps : gmap string value) :
  encoded_path (GetBusiness (VStr s) ps)
  = str_encode_utf8 (BUSINESS_PATH ++ s).
Proof. reflexivity. Qed.

(** X1: the events of a call happen in one fixed order and at most once
    each: the URL is signed, the URL the authenticator returned for it is
    opened, the connection is read, closed, and the wrapper is built.
    Whatever the outcome, the trace of a call is an initial part of that
    sequence. *)
Theorem events_in_order (self : Client) (c : call) :
  exists url m w rest,
    (trace (run self c) ++ rest)%list
    = [SignRequest url m;
       UrlOpen (sign_request (authenticator self) url m);
       ConnRead; ConnClose; Construct w].
Proof.
  rewrite run_unfolded. unfold signed_url.
  destruct (encoded_path c) as [e | path].
  - exists "", ∅, (wrapper_of c None). eexists. reflexivity.
  - exists (url_of path), (params_of c). cbv zeta.
    destruct (urlopen _) as [[[e | body]] | err | e]; cbn [conn_body];
      [ | destruct (json_loads body) as [doc |] | | ];
      try (exists (wrapper_of c None); eexists; reflexivity).
    exists (wrapper_of c (Some doc)), []. reflexivity.
Qed.

(** X2: a connection is read once and closed once exactly when
    [urlopen] returned one, whatever reading and parsing then do; when
    the path cannot be built or [urlopen] raises, nothing is read or
    closed. *)
Theorem connection_closed_exactly_once (self : Client) (c : call) :
  closes (trace (run self c)) = reads (trace (run self c))
  /\ closes (trace (run self c))
     = (if path_ok c
        then match urlopen (signed_url self c) with
             | Connected _ => 1
             | _ => 0
             end
        else 0)%nat.
Proof.
  rewrite run_unfolded. unfold path_ok, signed_url.
  destruct (encoded_path c) as [e | path]; [split; reflexivity |].
  cbv zeta. destruct (urlopen _) as [[[e | body]] | err | e];
    try (split; reflexivity).
  cbn [conn_body]. destruct (json_loads body); split; reflexivity.
Qed.

(** X3: an exception of [urlopen] that is not an [HTTPError] reaches the
    caller as it is: the error handler has no part in it, nothing is
    read, there is no second request, and no wrapper is built. *)
Theorem transport_error_propagates
    (self : Client) (c : call) (e : error) :
  path_ok c = true ->
  urlopen (signed_url self c) = RaisedOther e ->
  outcome (run self c) = inl (Builtin e)
  /\ requests (trace (run self c)) = [signed_url self c]
  /\ reads (trace (run self c)) = 0%nat
  /\ wrappers (trace (run self c)) = [].
Proof.
  intros Hok He. rewrite run_unfolded. unfold path_ok in Hok.
  destruct (encoded_path c) as [e' | path] eqn:Hpath; [discriminate |].
  cbv zeta. rewrite He. repeat split; reflexivity.
Qed.

(** X4: when [conn.read()] fails, the connection is closed all the same
    and the failure reaches the caller as it is; the body is not parsed
    and no wrapper is built. *)
Theorem read_failure_closes_and_propagates
    (self : Client) (c : call) (conn : connection) (e : error) :
  path_ok c = true ->
  urlopen (signed_url self c) = Connected conn ->
  conn_body conn = inl e ->
  outcome (run self c) = inl (Builtin e)
  /\ closes (trace (run self c)) = 1%nat
  /\ requests (trace (run self c)) = [signed_url self c]
  /\ wrappers (trace (run self c)) = [].
Proof.
  intros Hok Hconn He. rewrite run_unfolded. unfold path_ok in Hok.
  destruct (encoded_path c) as [e' | path] eqn:Hpath; [discriminate |].
  cbv zeta. rewrite Hconn, He. repeat split; reflexivity.
Qed.

(** The path of a business whose id is unicode text. *)
Lemma encoded_path_unicode (u : list N) (ps : gmap string value) :
  ascii_only BUSINESS_PATH = true ->
  encoded_path (GetBusiness (UnicodeText u) ps)
  = inr (unicode_encode_utf8
           (map N_of_ascii (list_ascii_of_string BUSINESS_PATH) ++ u)%list).
Proof.
  intros Hok. unfold encoded_path. cbn [path_of str_add].
  unfold ascii_decode. now rewrite Hok.
Qed.

(** X6: what [get_business] does with its business id, before anything
    is signed.  An id that is [None], a boolean or a number ends the call
    with [TypeError].  A byte string is sent when every byte of the path
    is ASCII and otherwise ends the call with [UnicodeDecodeError].
    Unicode text is always sent, the path encoded as UTF-8, provided the
    business path itself is ASCII; if it is not, adding the id to it ends
    the call with [UnicodeDecodeError].  Where the call is sent there is
    one request and [url_params] is signed as it is. *)
Theorem get_business_id_errors
    (self : Client) (business_id : object)
    (url_params : gmap string value) :
  match business_id with
  | Plain (VStr s) =>
      if ascii_only (BUSINESS_PATH ++ s)
      then sign_requests (trace (get_business self business_id url_params))
           = [(url_of (BUSINESS_PATH ++ s), url_params)]
           /\ length (requests
                        (trace (get_business self business_id url_params)))
              = 1%nat
      else get_business self business_id url_params
           = raise (Builtin UnicodeDecodeError)
  | UnicodeText u =>
      if ascii_only BUSINESS_PATH
      then sign_requests (trace (get_business self business_id url_params))
           = [(url_of (unicode_encode_utf8
                         (map N_of_ascii (list_ascii_of_string BUSINESS_PATH)
                            ++ u)%list),
               url_params)]
           /\ length (requests
                        (trace (get_business self business_id url_params)))
              = 1%nat
      else get_business self business_id url_params
           = raise (Builtin UnicodeDecodeError)
  | Plain _ =>
      get_business self business_id url_params = raise (Builtin TypeError)
  end.
Proof.
  change (get_business self business_id url_params)
    with (run self (GetBusiness business_id url_params)).
  destruct business_id as [[| b | z | f | s] | u];
    try (rewrite run_unfolded; reflexivity).
  - destruct (ascii_only (BUSINESS_PATH ++ s)) eqn:Hok.
    + rewrite sign_requests_run, requests_run. unfold path_ok.
      rewrite encoded_path_bytes, (str_encode_utf8_ascii _ Hok).
      split; reflexivity.
    + rewrite run_unfolded, encoded_path_bytes.
      unfold str_encode_utf8. now rewrite Hok.
  - destruct (ascii_only BUSINESS_PATH) eqn:Hok.
    + rewrite sign_requests_run, requests_run. unfold path_ok.
      rewrite (encoded_path_unicode _ _ Hok). split; reflexivity.
    + rewrite run_unfolded. unfold encoded_path. cbn [path_of str_add].
      unfold ascii_decode. now rewrite Hok.
Qed.

(** X7: the business id enters the URL percent-quoted, after the quoted
    business path; the quoted id is made of letters, digits, [_ . - /]
    and [%] only, so an id can neither end the path nor start a query. *)
Theorem business_url_is_quoted
    (self : Client) (s : string) (url_params : gmap string value) :
  ascii_only (BUSINESS_PATH ++ s) = true ->
  sign_requests (trace (get_business self (VStr s) url_params))
  = [("https://" ++ API_HOST ++ quote BUSINESS_PATH ++ quote s ++ "?",
      url_params)]
  /\ forallb quoted_char (list_ascii_of_string (quote s)) = true.
Proof.
  intros Hok. split; [| apply quote_chars].
  change (get_business self (VStr s) url_params)
    with (run self (GetBusiness (VStr s) url_params)).
  rewrite sign_requests_run, encoded_path_bytes,
    (str_encode_utf8_ascii _ Hok).
  cbn [params_of]. unfold url_of. now rewrite quote_app, !append_assoc.
Qed.

(** X8: for a business path and a business id made of letters, digits
    and [_ . - /] only, the URL that is signed is the plain
    concatenation 'https://' + host + path + id + '?'. *)
Theorem business_url_plain
    (self : Client) (s : string) (url_params : gmap string value) :
  forallb unquoted (list_ascii_of_string BUSINESS_PATH) = true ->
  forallb unquoted (list_ascii_of_string s) = true ->
  sign_requests (trace (get_business self (VStr s) url_params))
  = [("https://" ++ API_HOST ++ BUSINESS_PATH ++ s ++ "?", url_params)].
Proof.
  intros Hpath Hid.
  change (get_business self (VStr s) url_params)
    with (run self (GetBusiness (VStr s) url_params)).
  assert (Hok : ascii_only (BUSINESS_PATH ++ s) = true).
  { now rewrite ascii_only_app, (unquoted_ascii_only _ Hpath),
      (unquoted_ascii_only _ Hid). }
  rewrite sign_requests_run, encoded_path_bytes,
    (str_encode_utf8_ascii _ Hok).
  cbn [params_of]. unfold url_of.
  now rewrite quote_app, (quote_unquoted _ Hpath), (quote_unquoted _ Hid),
    !append_assoc.
Qed.

(** X9: the three search methods sign one and the same URL, built from
    the host and the search path, and [phone_search] the one of the phone
    search path: no argument of theirs is ever part of the URL. *)
Theorem search_url_is_fixed (self : Client) :
  ascii_only SEARCH_PATH = true ->
  ascii_only PHONE_SEARCH_PATH = true ->
  (forall location lat long url_params,
      map fst (sign_requests
                 (trace (search self location lat long url_params)))
      = ["https://" ++ API_HOST ++ quote SEARCH_PATH ++ "?"])
  /\ (forall a b c d url_params,
      map fst (sign_requests
                 (trace (search_by_bounding_box self a b c d url_params)))
      = ["https://" ++ API_HOST ++ quote SEARCH_PATH ++ "?"])
  /\ (forall lat long acc alt alt_acc url_params,
      map fst (sign_requests
                 (trace (search_by_coordinates self lat long acc alt alt_acc
                           url_params)))
      = ["https://" ++ API_HOST ++ quote SEARCH_PATH ++ "?"])
  /\ (forall phone url_params,
      map fst (sign_requests (trace (phone_search self phone url_params)))
      = ["https://" ++ API_HOST ++ quote PHONE_SEARCH_PATH ++ "?"]).
Proof.
  intros Hsearch Hphone.
  assert (Hrun : forall c,
             map fst (sign_requests (trace (run self c)))
             = match encoded_path c with
               | inr path => [url_of path]
               | inl _ => []
               end).
  { intros c. rewrite sign_requests_run.
    now destruct (encoded_path c). }
  repeat split.
  - intros location lat long ps.
    change (search self location lat long ps)
      with (run self (Search location lat long ps)).
    rewrite Hrun, encoded_path_fixed.
    now rewrite (str_encode_utf8_ascii _ Hsearch).
  - intros a b c d ps.
    change (search_by_bounding_box self a b c d ps)
      with (run self (SearchByBoundingBox a b c d ps)).
    rewrite Hrun, encoded_path_fixed.
    now rewrite (str_encode_utf8_ascii _ Hsearch).
  - intros lat long acc alt alt_acc ps.
    change (search_by_coordinates self lat long acc alt alt_acc ps)
      with (run self (SearchByCoordinates lat long acc alt alt_acc ps)).
    rewrite Hrun, encoded_path_fixed.
    now rewrite (str_encode_utf8_ascii _ Hsearch).
  - intros phone ps.
    change (phone_search self phone ps)
      with (run self (PhoneSearch phone ps)).
    rewrite Hrun, encoded_path_fixed.
    now rewrite (str_encode_utf8_ascii _ Hphone).
Qed.

(** X10: whenever the path of a call can be built and encoded, the call
    signs one mapping and sends one request, and the mapping carries the
    parameter values as they were given, whatever they are: the named
    arguments rendered with [str] ([location] and [phone] as they are),
    every other entry of [url_params] untouched, and for [get_business]
    the whole of [url_params] as it is.  No value is checked, clamped or
    dropped. *)
Theorem parameters_pass_through (self : Client) (c : call) :
  path_ok c = true ->
  exists m,
    signed_params (trace (run self c)) = [m]
    /\ requests (trace (run self c)) = [signed_url self c]
    /\ passed_through c m.
Proof.
  intros Hok. exists (params_of c).
  rewrite signed_params_run, requests_run, Hok.
  repeat split. apply params_of_passed_through.
Qed.

End Client.

(* ===================================================================== *)
(** * The client at work in the concrete world *)
(* ===================================================================== *)

Definition demo_client : Client := {| authenticator := demo_authenticator |}.

(** A business lookup that goes through, event by event. *)
Example get_business_runs :
  run (W := demo_world answer_ok) demo_client
    (GetBusiness (VStr "yelp-san-francisco") {[ "cc" := VStr "US" ]})
  = ([SignRequest "https://api.yelp.com/v2/business/yelp-san-francisco?"
        {[ "cc" := VStr "US" ]};
      UrlOpen ("https://api.yelp.com/v2/business/yelp-san-francisco?"
                 ++ "oauth_signature=demo");
      ConnRead; ConnClose;
      Construct (BusinessResponse (W := demo_world answer_ok) (Some "{}"))],
     inr (BusinessResponse (W := demo_world answer_ok) (Some "{}"))).
Proof. reflexivity. Qed.

(** The byte string 'caf\xc3\xa9' (UTF-8 for a cafe with an acute
    accent) and the same word as unicode text, u'caf\xe9'. *)
Definition cafe : string :=
  "caf" ++ String "195"%char (String "169"%char "").

Definition cafe_text : list N := [99; 97; 102; 233]%N.



(** The coordinate string of a point with an accuracy and nothing else. *)
Lemma format_coordinates_witness :
  VFloat 10.5 <> VNone
  /\ _format_coordinates (W := demo_world answer_ok)
       (VFloat 37.8) (VFloat (-122.4)) (VFloat 10.5) VNone (VInt 3)
     = ret "37.8,-122.4,10.5".
Proof.
  split; [discriminate |].
  apply (format_coordinates_stops_at_first_unset
           (W := demo_world answer_ok) demo_client
           (VFloat 37.8) (VFloat (-122.4)) (VFloat 10.5) VNone (VInt 3) ∅).
  discriminate.
Defined.

Lemma search_by_coordinates_example_witness :
  ascii_only (SEARCH_PATH (World := demo_world answer_ok)) = true
  /\ signed_params
       (trace (search_by_coordinates (W := demo_world answer_ok) demo_client
                 (VFloat 37.8) (VFloat (-122.4)) VNone VNone VNone ∅))
     = [ {[ "ll" := VStr "37.8,-122.4" ]} ].
Proof.
  split; [reflexivity |].
  apply (search_by_coordinates_example (W := demo_world answer_ok)).
  reflexivity.
Defined.

(** A search answered with status 400. *)
Lemma http_error_witness :
  In "https://api.yelp.com/v2/search/?oauth_signature=demo"
     (requests (trace (run (W := demo_world answer_400) demo_client
                         (Search (VStr "San Francisco") VNone VNone ∅))))
  /\ outcome (run (W := demo_world answer_400) demo_client
                (Search (VStr "San Francisco") VNone VNone ∅))
     = inl (ApiError (W := demo_world answer_400) 400)
  /\ wrappers (trace (run (W := demo_world answer_400) demo_client
                        (Search (VStr "San Francisco") VNone VNone ∅)))
     = [].
Proof.
  split; [left; reflexivity |].
  apply (http_error_raises_without_wrapper (W := demo_world answer_400)
           demo_client (Search (VStr "San Francisco") VNone VNone ∅)
           "https://api.yelp.com/v2/search/?oauth_signature=demo"
           {| code := 400; msg := "Bad Request"; error_body := "" |});
    [left |]; reflexivity.
Defined.

(** A phone search answered with a page that is not JSON. *)
Lemma json_parse_failure_witness :
  In "https://api.yelp.com/v2/phone_search/?oauth_signature=demo"
     (requests (trace (run (W := demo_world answer_garbled) demo_client
                         (PhoneSearch (VStr "+14159083801") ∅))))
  /\ outcome (run (W := demo_world answer_garbled) demo_client
                (PhoneSearch (VStr "+14159083801") ∅))
     = inl (Builtin ValueError)
  /\ requests (trace (run (W := demo_world answer_garbled) demo_client
                        (PhoneSearch (VStr "+14159083801") ∅)))
     = ["https://api.yelp.com/v2/phone_search/?oauth_signature=demo"]
  /\ wrappers (trace (run (W := demo_world answer_garbled) demo_client
                        (PhoneSearch (VStr "+14159083801") ∅)))
     = [].
Proof.
  split; [left; reflexivity |].
  destruct (json_parse_failure_is_fatal (W := demo_world answer_garbled)
              demo_client (PhoneSearch (VStr "+14159083801") ∅)
              "https://api.yelp.com/v2/phone_search/?oauth_signature=demo"
              {| conn_body := inr "<html>" |} "<html>")
    as (Hout & Hreq & _ & Hwrap);
    [left; reflexivity | reflexivity | reflexivity |].
  split; [exact Hout |]. split; [exact Hreq |].
  apply Hwrap. reflexivity.
Defined.

(** C7: the code at the failing input.  [get_business('caf\xc3\xa9')]
    stops in [path.encode('utf-8')] with [UnicodeDecodeError], the byte
    string being decoded as ASCII first: no request goes out, where the
    claim has exactly one.  The same id as unicode text, u'caf\xe9', is
    encoded, quoted and sent in one request. *)
Lemma get_business_byte_id_sends_nothing :
  run (W := demo_world answer_ok) demo_client (GetBusiness (VStr cafe) ∅)
  = ([], inl (Builtin UnicodeDecodeError))
  /\ ~ exactly_one_request (W := demo_world answer_ok) demo_client
         (GetBusiness (VStr cafe) ∅)
  /\ requests
       (trace (run (W := demo_world answer_ok) demo_client
                 (GetBusiness (UnicodeText cafe_text) ∅)))
     = ["https://api.yelp.com/v2/business/caf%C3%A9?oauth_signature=demo"]
  /\ exactly_one_request (W := demo_world answer_ok) demo_client
       (GetBusiness (UnicodeText cafe_text) ∅).
Proof.
  split; [reflexivity |]. split; [| split; reflexivity].
  unfold exactly_one_request. rewrite requests_run.
  assert (Hok : path_ok (W := demo_world answer_ok)
                  (GetBusiness (VStr cafe) ∅) = false) by reflexivity.
  rewrite Hok. discriminate.
Qed.


(** C9, as stated, fails: with no coordinates given, a ['cll'] the caller
    put in [url_params] is in the request all the same. *)
Lemma search_keeps_caller_cll :
  ~ cll_iff_both_given (W := demo_world answer_ok) demo_client
      (VStr "San Francisco") VNone VNone {[ "cll" := VStr "37.77,-122.42" ]}.
Proof.
  intros (m & Hm & Hiff).
  change (search demo_client (VStr "San Francisco") VNone VNone
            {[ "cll" := VStr "37.77,-122.42" ]})
    with (run (W := demo_world answer_ok) demo_client
            (Search (VStr "San Francisco") VNone VNone
               {[ "cll" := VStr "37.77,-122.42" ]})) in Hm.
  rewrite signed_params_run in Hm.
  assert (Hok : path_ok (W := demo_world answer_ok)
                  (Search (VStr "San Francisco") VNone VNone
                     {[ "cll" := VStr "37.77,-122.42" ]}) = true)
    by reflexivity.
  rewrite Hok in Hm. injection Hm as <-.
  cbn [params_of is_not_None andb] in Hiff.
  destruct (proj1 Hiff) as [Hlat _]; [| now apply Hlat].
  rewrite lookup_insert_ne by discriminate.
  rewrite lookup_singleton_eq. eexists; reflexivity.
Qed.

(** A search with both coordinates and no ['cll'] from the caller. *)
Lemma search_cll_witness :
  ascii_only (SEARCH_PATH (World := demo_world answer_ok)) = true
  /\ exists m,
       signed_params
         (trace (search (W := demo_world answer_ok) demo_client
                   (VStr "San Francisco") (VFloat 37.77) (VFloat (-122.42))
                   ∅))
       = [m]
       /\ m !! "cll" = Some (VStr "37.77,-122.42").
Proof.
  split; [reflexivity |].
  destruct (search_cll_set_iff_both_given (W := demo_world answer_ok)
              demo_client (VStr "San Francisco")
              (VFloat 37.77) (VFloat (-122.42)) ∅)
    as (m & Hm & Hcll & _); [reflexivity |].
  exists m. split; [exact Hm | exact Hcll].
Defined.

(** A bounding-box search whose caller also passed ['bounds']. *)
Lemma named_arguments_witness :
  ascii_only (SEARCH_PATH (World := demo_world answer_ok)) = true
  /\ ascii_only (PHONE_SEARCH_PATH (World := demo_world answer_ok)) = true
  /\ exists m,
       signed_params
         (trace (search_by_bounding_box (W := demo_world answer_ok)
                   demo_client (VFloat 37.9) (VFloat (-122.5))
                   (VFloat 37.788022) (VFloat (-122.399797))
                   {[ "bounds" := VStr "0,0|1,1" ]}))
       = [m]
       /\ m !! "bounds"
          = Some (VStr "37.9,-122.5|37.788022,-122.399797").
Proof.
  split; [reflexivity |]. split; [reflexivity |].
  destruct (named_arguments_take_precedence (W := demo_world answer_ok)
              demo_client)
    as (_ & Hbounds & _); [reflexivity | reflexivity |].
  exact (Hbounds (VFloat 37.9) (VFloat (-122.5))
           (VFloat 37.788022) (VFloat (-122.399797))
           {[ "bounds" := VStr "0,0|1,1" ]}).
Defined.

(* ===================================================================== *)
(** * More runs in the concrete world *)
(* ===================================================================== *)

Definition answer_unreachable : urlopen_result :=
  RaisedOther (IOError "timed out").

Definition answer_reset : urlopen_result :=
  Connected {| conn_body := inl (IOError "connection reset by peer") |}.

(** A search on a network that is down. *)
Lemma transport_error_witness :
  path_ok (W := demo_world answer_unreachable)
    (Search (VStr "Oakland") VNone VNone ∅) = true
  /\ outcome (run (W := demo_world answer_unreachable) demo_client
                (Search (VStr "Oakland") VNone VNone ∅))
     = inl (Builtin (IOError "timed out"))
  /\ reads (trace (run (W := demo_world answer_unreachable) demo_client
                     (Search (VStr "Oakland") VNone VNone ∅))) = 0%nat.
Proof.
  split; [reflexivity |].
  destruct (transport_error_propagates (W := demo_world answer_unreachable)
              demo_client (Search (VStr "Oakland") VNone VNone ∅)
              (IOError "timed out"))
    as (Hout & _ & Hreads & _); [reflexivity | reflexivity |].
  split; [exact Hout | exact Hreads].
Defined.

(** A business lookup whose connection breaks while the body is read. *)
Lemma read_failure_witness :
  path_ok (W := demo_world answer_reset)
    (GetBusiness (VStr "yelp-san-francisco") ∅) = true
  /\ outcome (run (W := demo_world answer_reset) demo_client
                (GetBusiness (VStr "yelp-san-francisco") ∅))
     = inl (Builtin (IOError "connection reset by peer"))
  /\ closes (trace (run (W := demo_world answer_reset) demo_client
                      (GetBusiness (VStr "yelp-san-francisco") ∅))) = 1%nat.
Proof.
  split; [reflexivity |].
  destruct (read_failure_closes_and_propagates (W := demo_world answer_reset)
              demo_client (GetBusiness (VStr "yelp-san-francisco") ∅)
              {| conn_body := inl (IOError "connection reset by peer") |}
              (IOError "connection reset by peer"))
    as (Hout & Hclose & _); [reflexivity | reflexivity | reflexivity |].
  split; [exact Hout | exact Hclose].
Defined.

(** A business id that tries to smuggle in a query string. *)
Lemma business_url_is_quoted_witness :
  ascii_only (BUSINESS_PATH (World := demo_world answer_ok) ++ "a b?c=d")
  = true
  /\ sign_requests
       (trace (get_business (W := demo_world answer_ok) demo_client
                 (VStr "a b?c=d") ∅))
     = [("https://api.yelp.com/v2/business/a%20b%3Fc%3Dd?", ∅)].
Proof.
  split; [reflexivity |].
  exact (proj1 (business_url_is_quoted (W := demo_world answer_ok)
                  demo_client "a b?c=d" ∅ eq_refl)).
Defined.

(** An ordinary business id. *)
Lemma business_url_plain_witness :
  forallb unquoted
    (list_ascii_of_string (BUSINESS_PATH (World := demo_world answer_ok)))
  = true
  /\ forallb unquoted (list_ascii_of_string "yelp-san-francisco") = true
  /\ sign_requests
       (trace (get_business (W := demo_world answer_ok) demo_client
                 (VStr "yelp-san-francisco") ∅))
     = [("https://api.yelp.com/v2/business/yelp-san-francisco?", ∅)].
Proof.
  split; [reflexivity |]. split; [reflexivity |].
  exact (business_url_plain (W := demo_world answer_ok) demo_client
           "yelp-san-francisco" ∅ eq_refl eq_refl).
Defined.

(** Two searches of different kinds sign the same URL. *)
Lemma search_url_is_fixed_witness :
  ascii_only (SEARCH_PATH (World := demo_world answer_ok)) = true
  /\ ascii_only (PHONE_SEARCH_PATH (World := demo_world answer_ok)) = true
  /\ map fst (sign_requests
                (trace (search (W := demo_world answer_ok) demo_client
                          (VStr "Oakland") VNone VNone ∅)))
     = ["https://api.yelp.com/v2/search/?"]
  /\ map fst (sign_requests
                (trace (search_by_coordinates (W := demo_world answer_ok)
                          demo_client (VFloat 37.8) (VFloat (-122.4))
                          VNone VNone VNone ∅)))
     = ["https://api.yelp.com/v2/search/?"].
Proof.
  split; [reflexivity |]. split; [reflexivity |].
  destruct (search_url_is_fixed (W := demo_world answer_ok) demo_client
              eq_refl eq_refl)
    as (Hsearch & _ & Hcoords & _).
  split; [apply Hsearch | apply Hcoords].
Defined.

(** A search far outside any range, with a stray parameter of the
    caller's. *)
Lemma parameters_pass_through_witness :
  path_ok (W := demo_world answer_ok)
    (SearchByCoordinates (VFloat 1000) (VFloat (-9999.5)) (VInt (-1))
       VNone VNone {[ "limit" := VInt 100000 ]}) = true
  /\ exists m,
       signed_params
         (trace (run (W := demo_world answer_ok) demo_client
                   (SearchByCoordinates (VFloat 1000) (VFloat (-9999.5))
                      (VInt (-1)) VNone VNone
                      {[ "limit" := VInt 100000 ]})))
       = [m]
       /\ m !! "ll" = Some (VStr "1000.0,-9999.5,-1")
       /\ m !! "limit" = Some (VInt 100000).
Proof.
  split; [reflexivity |].
  destruct (parameters_pass_through (W := demo_world answer_ok) demo_client
              (SearchByCoordinates (VFloat 1000) (VFloat (-9999.5))
                 (VInt (-1)) VNone VNone {[ "limit" := VInt 100000 ]})
              eq_refl)
    as (m & Hm & _ & Hll & Hrest).
  exists m. split; [exact Hm |]. split; [exact Hll |].
  rewrite (Hrest "limit") by discriminate. reflexivity.
Defined.
